(** * A shallow embedding of the multithreaded file downloader

    The development follows [downloader_funcs.py] and [main.py].  Python
    functions become Rocq functions of the same name in a small state and
    exception monad over a [World] that holds the file system, the shared
    [reports] list and a trace of the observable effects (HTTP requests,
    file writes, renames, prints, the report write). *)

From Stdlib Require Import ZArith Strings.String Strings.Ascii Strings.Byte.
From stdpp Require Import gmap strings list sorting.

Local Open Scope string_scope.
Local Open Scope Z_scope.
Local Open Scope list_scope.

(** ** Python values *)

(** A cell of an input row as pandas delivers it: a string, or the float
    [nan] that stands for an empty spreadsheet cell. *)
Inductive Cell : Type :=
  | CStr (s : string)
  | CNaN.

(** [str(x)] *)
Definition py_str (x : Cell) : string :=
  match x with
  | CStr s => s
  | CNaN => "nan"
  end.

(** The one-character string holding a double quote. *)
Definition dquote : string := String "034"%char EmptyString.

(** [sub in s] on Python strings. *)
Fixpoint py_in (sub s : string) : bool :=
  String.prefix sub s ||
  match s with
  | EmptyString => false
  | String _ s' => py_in sub s'
  end.

(** Exceptions the modelled code can meet.  [RequestError] stands for
    whatever [rq.get] raises (timeout, DNS, refused connection, invalid
    URL, malformed response); its argument is [str(e)]. *)
Inductive Exn : Type :=
  | RequestError (detail : string)
  | KeyError (key : string)
  | FileNotFoundError (path : string).

Definition exn_str (e : Exn) : string :=
  match e with
  | RequestError d => d
  | KeyError k => "'" +:+ k +:+ "'"
  | FileNotFoundError p => p
  end.

(** The fields of [requests.Response] the program reads.  [headers] is the
    case-insensitive dictionary of the response, keyed here by lower-case
    header names. *)
Record Response : Type := mkResponse {
  status_code : Z;
  headers : gmap string string;
  content : list byte;
  text : string;
  encoding : option string;
  url : string;
}.

(** One row of the report: the dictionary built by [_add_to_report], with
    keys "name", "success?", "from url" and "exceptions encountered". *)
Record ReportEntry : Type := mkReport {
  name : string;
  success : bool;
  from_url : string;
  exceptions_encountered : string;
}.

(** What a file holds: bytes written in mode "wb", text written in mode "w"
    with the given encoding, or a spreadsheet written by [to_excel]. *)
Inductive FileData : Type :=
  | Bytes (b : list byte)
  | Text (t : string) (enc : option string)
  | Sheet (rows : list ReportEntry).

(** Observable effects, in the order they happen. *)
Inductive Event : Type :=
  | EvGet (u : Cell) (timeout : Z)
  | EvWrite (path : string) (d : FileData)
  | EvReplace (src dst : string)
  | EvPrint (msg : string)
  | EvExcel (path : string) (rows : list ReportEntry).

(** The mutable world: regular files by path, the [reports] list object
    that [main] creates and every job appends to, and the trace. *)
Record World : Type := mkWorld {
  fs : gmap string FileData;
  reports : list ReportEntry;
  trace : list Event;
}.

(** The module globals set by [init]. *)
Record Settings : Type := mkSettings {
  REPORT_FILE : string;
  DL_FOLDER : string;
  TEMP_DL_FOLDER : string;
  FILETYPE : string;
  IS_BIN : bool;
  DOWNLOAD_ALL : bool;
  TIMEOUT : Z;
}.

(** A row as [itertuples] yields it from the frame that [load_input] builds:
    the naming column first, the link columns after it.  The pair is the
    cell at index 0, a string by the annotations of the functions that take
    the name, and the cells from index 1 on. *)
Definition datarow : Type := string * list Cell.

(** ** The monad: state passing with exceptions

    An exception keeps the world reached so far: files written and
    requests made before the raise stay. *)

Inductive Outcome (A : Type) : Type :=
  | Return (a : A)
  | Raise (e : Exn).
Arguments Return {A} a.
Arguments Raise {A} e.

Definition M (A : Type) : Type := World -> World * Outcome A.

Definition ret {A} (a : A) : M A := fun w => (w, Return a).
Definition raise {A} (e : Exn) : M A := fun w => (w, Raise e).
Definition bind {A B} (m : M A) (k : A -> M B) : M B :=
  fun w =>
    match m w with
    | (w', Return a) => k a w'
    | (w', Raise e) => (w', Raise e)
    end.

Notation "'do' x <- m ; k" := (bind m (fun x => k))
  (at level 10, x name, m at level 100, k at level 200, only parsing).
Notation "'do' ' p <- m ; k" := (bind m (fun x => let 'p := x in k))
  (at level 10, p pattern, m at level 100, k at level 200, only parsing).
Notation "'run' m ; k" := (bind m (fun _ => k))
  (at level 10, m at level 100, k at level 200, only parsing).

Definition emit (e : Event) : M unit :=
  fun w => (mkWorld (fs w) (reports w) (trace w ++ [e]), Return tt).

(** ** Operating system and library primitives *)

(** [os.path.isfile(path)] *)
Definition os_path_isfile (path : string) : M bool :=
  fun w => (w, Return (bool_decide (is_Some (fs w !! path)))).

(** [with open(path, mode) as f: f.write(d)]: the file is created or
    truncated, then holds exactly [d]. *)
Definition open_write (path : string) (d : FileData) : M unit :=
  fun w => (mkWorld (<[path := d]> (fs w)) (reports w)
                    (trace w ++ [EvWrite path d]), Return tt).

(** [os.replace(src, dst)]: one rename; [dst] is overwritten when it
    exists, a missing [src] raises. *)
Definition os_replace (src dst : string) : M unit :=
  fun w =>
    match fs w !! src with
    | None => (w, Raise (FileNotFoundError src))
    | Some d => (mkWorld (<[dst := d]> (delete src (fs w))) (reports w)
                         (trace w ++ [EvReplace src dst]), Return tt)
    end.

(** [print(msg)] *)
Definition print (msg : string) : M unit := emit (EvPrint msg).

(** [reports.append(s)] on the shared list. *)
Definition reports_append (s : ReportEntry) : M unit :=
  fun w => (mkWorld (fs w) (reports w ++ [s]) (trace w), Return tt).

(** [reports = []]: a fresh, empty shared list. *)
Definition reports_new : M unit :=
  fun w => (mkWorld (fs w) [] (trace w), Return tt).

(** Reading the shared list. *)
Definition reports_read : M (list ReportEntry) :=
  fun w => (w, Return (reports w)).

(** [with pd.ExcelWriter(path, mode='w') as writer: df.to_excel(writer)]:
    the spreadsheet at [path] is replaced by the rows of [df]. *)
Definition to_excel (path : string) (df : list ReportEntry) : M unit :=
  fun w => (mkWorld (<[path := Sheet df]> (fs w)) (reports w)
                    (trace w ++ [EvExcel path df]), Return tt).

(** [df.sort_values(by=['name'])]: rows in ascending order of the name,
    strings compared as Python compares them.  The order pandas gives to
    rows of equal name is not fixed by its default sort; the merge sort
    here keeps them in their former order. *)
Definition name_le (a b : ReportEntry) : Prop :=
  String.leb (name a) (name b) = true.

Global Instance name_le_dec a b : Decision (name_le a b).
Proof. unfold name_le. apply _. Defined.

Definition sort_values (df : list ReportEntry) : list ReportEntry :=
  merge_sort name_le df.

Section Downloader.

(** The settings in force, and the network: what [rq.get(url, timeout)]
    does for each URL, a raised exception or a completed response. *)
Variable cfg : Settings.
Variable rq_get : Cell -> Z -> Exn + Response.

(** The [try: r = rq.get(url, timeout=TIMEOUT)] of [_try_links], with
    the request recorded in the trace. *)
Definition http_get (u : Cell) : M (Exn + Response) :=
  run emit (EvGet u (TIMEOUT cfg));
  ret (rq_get u (TIMEOUT cfg)).

Definition write_report (reports : list ReportEntry) : M unit :=
  let df :=
    fold_left (fun df item => sort_values (df ++ [item])) reports [] in
  to_excel (REPORT_FILE cfg) df.

(** With [name_col_i] at its default 0, as [thread_job] calls it:
    [input[0]] is the name and [input[:0] + input[1:]] the links. *)
Definition _unpack_input (input : datarow) : string * list Cell :=
  let name := fst input in
  let links := snd input in
  let links := filter (fun x => py_str x ≠ "nan") links in
  (name, links).

Definition _file_exists (name : string) : M bool :=
  do b <- os_path_isfile (DL_FOLDER cfg +:+ name +:+ "." +:+ FILETYPE cfg);
  if b then ret true else ret false.

Definition _is_correct_filetype (response : Response) : M bool :=
  match headers response !! "content-type" with
  | None => raise (KeyError "content-type")
  | Some ct => if py_in (FILETYPE cfg) ct then ret true else ret false
  end.

(** The [for url in links] loop of [_try_links]; [res] and [exceptions]
    are the loop's two mutable variables. *)
Fixpoint _try_links_loop (links : list Cell) (res : option Response)
    (exceptions : list Exn) : M (option Response * list Exn) :=
  match links with
  | [] => ret (res, exceptions)
  | u :: links' =>
      do o <- http_get u;
      match o with
      | inl e => _try_links_loop links' res (exceptions ++ [e])
      | inr r =>
          do ok <- (if status_code r =? 200 then _is_correct_filetype r
                    else ret false);
          _try_links_loop links' (if ok then Some r else res) exceptions
      end
  end.

(** Returns the response and the [exceptions] list as the call leaves
    it. *)
Definition _try_links (links : list Cell) (exceptions : list Exn)
    : M (option Response * list Exn) :=
  _try_links_loop links None exceptions.

Definition _save_file (response : Response) (name : string) : M unit :=
  let save_path := TEMP_DL_FOLDER cfg +:+ name +:+ "." +:+ FILETYPE cfg in
  run (if IS_BIN cfg
       then open_write save_path (Bytes (content response))
       else open_write save_path (Text (text response) (encoding response)));
  let final_path := DL_FOLDER cfg +:+ name +:+ "." +:+ FILETYPE cfg in
  os_replace save_path final_path.

Definition _add_to_report (name : string) (success : bool)
    (response : option Response) (exceptions : list Exn) : M unit :=
  let from_url :=
    match response with
    | Some r => url r
    | None => EmptyString
    end in
  let encountered :=
    match exceptions with
    | [] => EmptyString
    | _ => String.concat " ; AND ; " (map exn_str exceptions)
    end in
  reports_append (mkReport name success from_url encountered).

Definition thread_job (input_row : datarow) : M unit :=
  let '(name, links) := _unpack_input input_row in
  do skip <- (if negb (DOWNLOAD_ALL cfg) then _file_exists name
              else ret false);
  if skip then ret tt
  else
    do '(response, exceptions) <- _try_links links [];
    match response with
    | Some r =>
        run _save_file r name;
        run print ("Downloaded " +:+ dquote +:+ name +:+ dquote);
        _add_to_report name true (Some r) exceptions
    | None => _add_to_report name false None exceptions
    end.

(** [executor.submit(dl.thread_job, row, reports)] for every row, then
    the join.  An exception raised inside a job stays in its future,
    which [main] never asks for: the next job runs all the same. *)
Fixpoint run_jobs (data : list datarow) : M unit :=
  match data with
  | [] => ret tt
  | row :: data' =>
      fun w => run_jobs data' (fst (thread_job row w))
  end.

(** [main] from [reports = []] on, [data] being what [load_input]
    returned.  Jobs are run one after the other in the order they are
    submitted, the schedule of a pool with one worker. *)
Definition main (data : list datarow) : M unit :=
  run reports_new;
  run run_jobs data;
  do reports <- reports_read;
  write_report reports.

(** *** Vocabulary of the statements *)

(** The request [_try_links] makes for candidate [u]. *)
Definition get_event (u : Cell) : Event := EvGet u (TIMEOUT cfg).

(** The response passes the test of [_try_links]: status 200 and a
    content type that contains [FILETYPE]. *)
Definition acceptable (r : Response) : bool :=
  (status_code r =? 200) &&
  match headers r !! "content-type" with
  | Some ct => py_in (FILETYPE cfg) ct
  | None => false
  end.

(** The response reaches [_is_correct_filetype] and has no content-type
    header for it to read. *)
Definition headerless (r : Response) : bool :=
  (status_code r =? 200) &&
  bool_decide (headers r !! "content-type" = None).

(** The fetch of [u] completes with a response that [p] holds of. *)
Definition yields (p : Response -> bool) (u : Cell) : bool :=
  match rq_get u (TIMEOUT cfg) with
  | inl _ => false
  | inr r => p r
  end.

(** The exceptions raised by the fetches of [links], in order. *)
Definition failures (links : list Cell) : list Exn :=
  omap (fun u => match rq_get u (TIMEOUT cfg) with
                 | inl e => Some e
                 | inr _ => None
                 end) links.

(** One turn of the loop of [_try_links] seen on its variable [res]. *)
Definition scan_step (res : option Response) (u : Cell) : option Response :=
  match rq_get u (TIMEOUT cfg) with
  | inl _ => res
  | inr r => if acceptable r then Some r else res
  end.

(** The paths [_file_exists] and [_save_file] build for a name. *)
Definition final_path (name : string) : string :=
  DL_FOLDER cfg +:+ name +:+ "." +:+ FILETYPE cfg.
Definition staging_path (name : string) : string :=
  TEMP_DL_FOLDER cfg +:+ name +:+ "." +:+ FILETYPE cfg.

(** The payload [_save_file] writes for a response. *)
Definition payload (r : Response) : FileData :=
  if IS_BIN cfg then Bytes (content r) else Text (text r) (encoding r).

(** The exists-already test of [thread_job]: the flag is false and the
    final file is there. *)
Definition should_skip (name : string) (w : World) : bool :=
  negb (DOWNLOAD_ALL cfg) && bool_decide (is_Some (fs w !! final_path name)).



End Downloader.

(** The world after more events. *)
Definition add_trace (w : World) (evs : list Event) : World :=
  mkWorld (fs w) (reports w) (trace w ++ evs).


(** The string [_add_to_report] stores under "exceptions encountered". *)
Definition joined (exceptions : list Exn) : string :=
  match exceptions with
  | [] => EmptyString
  | _ => String.concat " ; AND ; " (map exn_str exceptions)
  end.

(** ** Sample inputs

    A settings profile in the manner of [settings_example], a small network
    and a few worlds, on which statements are evaluated. *)

Module Sample.

Definition cfg : Settings :=
  mkSettings "./reports/Metadata2024.xlsx" "./PDFs/" "./PDFs_temp/"
             "pdf" true true 10.

(** The same profile with [do_download_all = False]. *)
Definition cfg_keep : Settings :=
  mkSettings "./reports/Metadata2024.xlsx" "./PDFs/" "./PDFs_temp/"
             "pdf" true false 10.

Definition pdf_response (u : string) (body : list byte) : Response :=
  mkResponse 200 {[ "content-type" := "application/pdf" ]} body
             EmptyString None u.

Definition html_response (u : string) : Response :=
  mkResponse 200 {[ "content-type" := "text/html; charset=utf-8" ]} []
             "<html></html>" (Some "utf-8") u.

(** A response without any header, with the given status. *)
Definition bare_response (status : Z) (u : string) : Response :=
  mkResponse status ∅ [] EmptyString None u.

Definition net (u : Cell) (timeout : Z) : Exn + Response :=
  match u with
  | CStr "http://a/r.pdf" => inr (pdf_response "http://a/r.pdf" [x41%byte])
  | CStr "http://b/r.pdf" => inl (RequestError "timed out")
  | CStr "http://c/r.pdf" => inr (pdf_response "http://c/r.pdf" [x43%byte])
  | CStr "http://h/" => inr (html_response "http://h/")
  | CStr "http://n/" => inr (bare_response 200 "http://n/")
  | CStr "http://f/" => inr (bare_response 404 "http://f/")
  | CStr "http://g/r.pdf" =>
      inr (mkResponse 404 {[ "content-type" := "application/pdf" ]} []
                      EmptyString None "http://g/r.pdf")
  | _ => inl (RequestError "no such host")
  end.

Definition A : Cell := CStr "http://a/r.pdf".
Definition B : Cell := CStr "http://b/r.pdf".
Definition C : Cell := CStr "http://c/r.pdf".
Definition H : Cell := CStr "http://h/".
Definition N : Cell := CStr "http://n/".
Definition F : Cell := CStr "http://f/".
Definition G : Cell := CStr "http://g/r.pdf".

(** Nothing on disk yet. *)
Definition fresh : World := mkWorld ∅ [] [].

(** [BR1.pdf] is in the downloads folder from an earlier run. *)
Definition downloaded : World :=
  mkWorld {[ "./PDFs/BR1.pdf" := Bytes [x30%byte] ]} [] [].

End Sample.

(** ** Start-up: the profiles of [main.py], [init] and [test_settings] *)

(** A value of a settings dictionary. *)
Inductive PyVal : Type :=
  | VStr (s : string)
  | VBool (b : bool)
  | VInt (z : Z)
  | VList (l : list string).


(** What the start-up code can meet besides a missing key: the three
    errors [_test_file] handles, a [TypeError], and any other exception. *)
Inductive StartExn : Type :=
  | ENOENT
  | EACCES
  | EISDIR
  | ETYPE
  | EOTHER (what : string).

(** How a start-up step ends: it goes on, the process exits through
    [exit(code)], or an exception nobody handles ends it. *)
Inductive Started (A : Type) : Type :=
  | Went (a : A)
  | Exited (code : Z)
  | Crashed (e : StartExn).
Arguments Went {A} a.
Arguments Exited {A} code.
Arguments Crashed {A} e.

(** The state of the start-up: the world, and the directories handed to
    [os.makedirs], in order. *)
Record Boot : Type := mkBoot {
  world : World;
  made : list string;
}.

Definition B (A : Type) : Type := Boot -> Boot * Started A.

Definition and_then {A C} (m : B A) (k : A -> B C) : B C :=
  fun b =>
    match m b with
    | (b', Went a) => k a b'
    | (b', Exited code) => (b', Exited code)
    | (b', Crashed e) => (b', Crashed e)
    end.

(** [print(msg)] during start-up. *)
Definition say (msg : string) : B unit :=
  fun b => (mkBoot (fst (print msg (world b))) (made b), Went tt).

(** [exit(code)] *)
Definition exit {A} (code : Z) : B A := fun b => (b, Exited code).

(** The [mode] argument of [open]: "r" or "w". *)
Inductive OpenMode : Type :=
  | ModeR
  | ModeW.



Section Startup.

(** The platform: [os.path.dirname]; what [os.makedirs(d, exist_ok=True)]
    raises, if anything; and what [open(path, mode)] raises for a reason
    other than a file to read not being there (no permission, a directory
    in the way, a missing folder for a new file, ...). *)
Variable os_path_dirname : string -> string.
Variable os_makedirs : string -> option StartExn.
Variable os_open_refuses : string -> OpenMode -> option StartExn.



(** [with open(path, mode) as f: pass]: reading needs the file to be
    there; writing creates it or empties it. *)
Definition open_and_close (path : string) (mode : OpenMode) : B unit :=
  fun b =>
    match os_open_refuses path mode with
    | Some e => (b, Crashed e)
    | None =>
        match mode with
        | ModeR =>
            match fs (world b) !! path with
            | Some _ => (b, Went tt)
            | None => (b, Crashed ENOENT)
            end
        | ModeW =>
            (mkBoot (mkWorld (<[path := Text EmptyString None]> (fs (world b)))
                             (reports (world b)) (trace (world b)))
                    (made b), Went tt)
        end
    end.

Definition _test_file (path : string) (mode : OpenMode) : B unit :=
  fun b =>
    match open_and_close path mode b with
    | (b', Crashed ENOENT) =>
        and_then (say ("File " +:+ dquote +:+ path +:+ dquote +:+
                       " not found. Exiting..."))
                 (fun _ => exit 1) b'
    | (b', Crashed EACCES) =>
        and_then (say ("No permission to access file " +:+ dquote +:+ path +:+
                       dquote +:+ ". Exiting..."))
                 (fun _ => exit 1) b'
    | (b', Crashed EISDIR) =>
        and_then (say ("Expected a file, but file " +:+ dquote +:+ path +:+
                       dquote +:+ " is a directory. Exiting..."))
                 (fun _ => exit 1) b'
    | other => other
    end.

(** [INPUT_FILE] and [REPORT_FILE] as the paths they are. *)
Definition test_settings (INPUT_FILE REPORT_FILE : string) : B unit :=
  and_then (_test_file INPUT_FILE ModeR) (fun _ =>
  _test_file REPORT_FILE ModeW).

End Startup.

(** The settings profiles of [main.py]. *)
Module Profiles.

Definition settings_example : gmap string PyVal :=
  list_to_map
    [("input_file", VStr "C:/path/to/GRI_2017_2020.xlsx");
     ("report_file", VStr "./reports/Metadata2024.xlsx");
     ("downloads_folder", VStr "./PDFs/");
     ("temporary_downloads_folder", VStr "./PDFs_temp/");
     ("link_columns", VList ["Pdf_URL"; "Report Html Address"]);
     ("naming_column", VStr "BRnum");
     ("download_filetype", VStr "pdf");
     ("download_is_binary_file", VBool true);
     ("do_download_all", VBool true);
     ("connection_timeout", VInt 10)].


Definition settings_html : gmap string PyVal :=
  list_to_map
    [("input_file", VStr "./test_input_files/html.xlsx");
     ("report_file", VStr "./reports/test_html.xlsx");
     ("downloads_folder", VStr "./html/");
     ("temporary_downloads_folder", VStr "./html_temp/");
     ("link_columns", VList ["url"]);
     ("naming_column", VStr "name");
     ("download_filetype", VStr "html");
     ("download_is_binary_file", VBool false);
     ("do_download_all", VBool true);
     ("connection_timeout", VInt 10)].




(** A world with the input sheet and an old report on disk. *)
Definition boot_with_report : Boot :=
  mkBoot (mkWorld {[ "in.xlsx" := Bytes [x50%byte];
                     "report.xlsx" := Sheet [mkReport "BR1" true "http://a/r.pdf"
                                               EmptyString];
                     "./PDFs/BR1.pdf" := Bytes [x30%byte] ]} [] []) [].

End Profiles.

(** ** Facts about the link resolver *)

Section Resolver.

Variable cfg : Settings.
Variable rq_get : Cell -> Z -> Exn + Response.

Local Abbreviation loop := (_try_links_loop cfg rq_get).
Local Abbreviation ev := (get_event cfg).

Lemma add_trace_nil w : add_trace w [] = w.
Proof. destruct w; unfold add_trace; simpl. by rewrite app_nil_r. Qed.

Lemma add_trace_app w l1 l2 :
  add_trace (add_trace w l1) l2 = add_trace w (l1 ++ l2).
Proof. unfold add_trace; simpl. by rewrite app_assoc. Qed.

(** The three ways one turn of the loop can go. *)
Lemma loop_fetch_fails u e links res excs w :
  rq_get u (TIMEOUT cfg) = inl e ->
  loop (u :: links) res excs w
  = loop links res (excs ++ [e]) (add_trace w [ev u]).
Proof.
  intros H. simpl. unfold bind, http_get, bind, emit, ret; simpl.
  by rewrite H.
Qed.

Lemma loop_fetch_checked u r links res excs w :
  rq_get u (TIMEOUT cfg) = inr r ->
  headerless r = false ->
  loop (u :: links) res excs w
  = loop links (if acceptable cfg r then Some r else res) excs
      (add_trace w [ev u]).
Proof.
  intros H Hh. simpl. unfold bind, http_get, bind, emit, ret; simpl.
  rewrite H. unfold headerless in Hh. unfold acceptable, _is_correct_filetype.
  destruct (status_code r =? 200); simpl in *; [|done].
  destruct (headers r !! "content-type") as [ct|]; simpl in *.
  - unfold ret. by destruct (py_in (FILETYPE cfg) ct).
  - by vm_compute in Hh.
Qed.

Lemma loop_fetch_headerless u r links res excs w :
  rq_get u (TIMEOUT cfg) = inr r ->
  headerless r = true ->
  loop (u :: links) res excs w
  = (add_trace w [ev u], Raise (KeyError "content-type")).
Proof.
  intros H Hh. simpl. unfold bind, http_get, bind, emit, ret; simpl.
  rewrite H. unfold headerless in Hh. apply andb_true_iff in Hh as [Hs Hk].
  rewrite Hs. apply bool_decide_eq_true_1 in Hk.
  unfold _is_correct_filetype. by rewrite Hk.
Qed.

(** The loop over a concatenation is the loop over the first part, then,
    unless that raised, the loop over the second part. *)
Lemma loop_app l1 l2 res excs w :
  loop (l1 ++ l2) res excs w
  = match loop l1 res excs w with
    | (w1, Return (res1, excs1)) => loop l2 res1 excs1 w1
    | (w1, Raise e) => (w1, Raise e)
    end.
Proof.
  revert res excs w. induction l1 as [|u l1 IH]; intros res excs w.
  - done.
  - rewrite <- app_comm_cons.
    destruct (rq_get u (TIMEOUT cfg)) as [e|r] eqn:Hu.
    + rewrite !(loop_fetch_fails _ _ _ _ _ _ Hu). apply IH.
    + destruct (headerless r) eqn:Hh.
      * by rewrite !(loop_fetch_headerless _ _ _ _ _ _ Hu Hh).
      * rewrite !(loop_fetch_checked _ _ _ _ _ _ Hu Hh). apply IH.
Qed.

(** When no candidate meets a missing header, the loop visits every
    candidate and returns. *)
Lemma loop_returns links res excs w :
  forallb (fun u => negb (yields cfg rq_get headerless u)) links = true ->
  loop links res excs w
  = (add_trace w (map ev links),
     Return (fold_left (scan_step cfg rq_get) links res,
             excs ++ failures cfg rq_get links)).
Proof.
  revert res excs w. induction links as [|u links IH]; intros res excs w H.
  - simpl. unfold ret. by rewrite add_trace_nil, app_nil_r.
  - simpl in H. apply andb_true_iff in H as [Hu H].
    unfold yields in Hu.
    assert (Hstep : scan_step cfg rq_get res u
                    = match rq_get u (TIMEOUT cfg) with
                      | inl _ => res
                      | inr r => if acceptable cfg r then Some r else res
                      end) by done.
    assert (Hfail : failures cfg rq_get (u :: links)
                    = match rq_get u (TIMEOUT cfg) with
                      | inl e => e :: failures cfg rq_get links
                      | inr _ => failures cfg rq_get links
                      end).
    { unfold failures. simpl. by destruct (rq_get u (TIMEOUT cfg)). }
    rewrite Hfail. cbn [fold_left map]. rewrite Hstep.
    destruct (rq_get u (TIMEOUT cfg)) as [e|r] eqn:Hr.
    + rewrite (loop_fetch_fails _ _ _ _ _ _ Hr), IH by done.
      rewrite add_trace_app. by rewrite <- app_assoc.
    + apply negb_true_iff in Hu.
      rewrite (loop_fetch_checked _ _ _ _ _ _ Hr Hu), IH by done.
      by rewrite add_trace_app.
Qed.

(** The loop never touches the files or the reports: it only adds the
    requests of a prefix of [links] to the trace, whatever the world, and
    the only exception that leaves it is the [KeyError] of the header
    lookup. *)
Lemma loop_frame links res excs :
  exists n o,
    (forall w, loop links res excs w
               = (add_trace w (map ev (take n links)), o)) /\
    (forall e, o = Raise e -> e = KeyError "content-type").
Proof.
  revert res excs. induction links as [|u links IH]; intros res excs.
  - exists 0%nat, (Return (res, excs)). simpl. unfold ret.
    split; [intros; by rewrite add_trace_nil|done].
  - destruct (rq_get u (TIMEOUT cfg)) as [e|r] eqn:Hr.
    + destruct (IH res (excs ++ [e])) as (n & o & H1 & H2).
      exists (S n), o. split; [intros w|done].
      rewrite (loop_fetch_fails _ _ _ _ _ _ Hr), H1.
      by rewrite add_trace_app.
    + destruct (headerless r) eqn:Hh.
      * exists 1%nat, (Raise (KeyError "content-type")).
        split; [intros w|by intros e [= <-]].
        by rewrite (loop_fetch_headerless _ _ _ _ _ _ Hr Hh).
      * destruct (IH (if acceptable cfg r then Some r else res) excs)
          as (n & o & H1 & H2).
        exists (S n), o. split; [intros w|done].
        rewrite (loop_fetch_checked _ _ _ _ _ _ Hr Hh), H1.
        by rewrite add_trace_app.
Qed.




(** Whatever the loop returns as its winner was the winner on entry or is
    the accepted response of one of the candidates. *)
Lemma loop_winner_origin links res excs w w' r excs' :
  loop links res excs w = (w', Return (Some r, excs')) ->
  res = Some r \/
  exists u, u ∈ links /\ rq_get u (TIMEOUT cfg) = inr r /\
            acceptable cfg r = true.
Proof.
  revert res excs w. induction links as [|u links IH]; intros res excs w H.
  - simpl in H. unfold ret in H. left. congruence.
  - destruct (rq_get u (TIMEOUT cfg)) as [e|r0] eqn:Hr.
    + rewrite (loop_fetch_fails _ _ _ _ _ _ Hr) in H.
      apply IH in H as [H|(v & Hv & H)]; [by left|right].
      exists v. split; [by apply elem_of_cons; right|done].
    + destruct (headerless r0) eqn:Hh.
      * by rewrite (loop_fetch_headerless _ _ _ _ _ _ Hr Hh) in H.
      * rewrite (loop_fetch_checked _ _ _ _ _ _ Hr Hh) in H.
        apply IH in H as [H|(v & Hv & H)].
        -- destruct (acceptable cfg r0) eqn:Ha; [|by left].
           right. exists u. split; [apply elem_of_cons; by left|].
           injection H as <-. done.
        -- right. exists v. split; [by apply elem_of_cons; right|done].
Qed.

(** The outcome of the loop does not depend on the world it runs in. *)
Lemma loop_outcome_world links res excs w w' :
  snd (loop links res excs w) = snd (loop links res excs w').
Proof.
  destruct (loop_frame links res excs) as (n & o & H & _).
  by rewrite (H w), (H w').
Qed.

(** A candidate with a headerless response stops the loop with the
    [KeyError], whatever came before it. *)
Lemma loop_raises links res excs :
  existsb (yields cfg rq_get headerless) links = true ->
  exists n, forall w,
    loop links res excs w
    = (add_trace w (map ev (take n links)), Raise (KeyError "content-type")).
Proof.
  revert res excs. induction links as [|u links IH]; intros res excs H;
    [done|].
  simpl in H. unfold yields at 1 in H.
  destruct (rq_get u (TIMEOUT cfg)) as [e|r] eqn:Hr.
  - destruct (IH res (excs ++ [e]) H) as [n Hn].
    exists (S n). intros w.
    rewrite (loop_fetch_fails _ _ _ _ _ _ Hr), Hn.
    by rewrite add_trace_app.
  - destruct (headerless r) eqn:Hh.
    + exists 1%nat. intros w.
      by rewrite (loop_fetch_headerless _ _ _ _ _ _ Hr Hh).
    + destruct (IH (if acceptable cfg r then Some r else res) excs H)
        as [n Hn].
      exists (S n). intros w.
      rewrite (loop_fetch_checked _ _ _ _ _ _ Hr Hh), Hn.
      by rewrite add_trace_app.
Qed.

(** Taking a turned-down candidate out of the list changes neither the
    winner nor the exceptions. *)
Lemma loop_without_rejected pre u post r res excs w :
  rq_get u (TIMEOUT cfg) = inr r ->
  acceptable cfg r = false ->
  headerless r = false ->
  snd (loop (pre ++ u :: post) res excs w)
  = snd (loop (pre ++ post) res excs w).
Proof.
  intros Hr Ha Hh. rewrite !loop_app.
  destruct (loop pre res excs w) as [w1 [[res1 excs1]|e]]; [|done].
  rewrite (loop_fetch_checked _ _ _ _ _ _ Hr Hh), Ha.
  apply loop_outcome_world.
Qed.

End Resolver.

(** ** Facts about one job *)

Section Job.

Variable cfg : Settings.
Variable rq_get : Cell -> Z -> Exn + Response.

Local Abbreviation ev := (get_event cfg).
Local Abbreviation links_of cells :=
  (filter (fun x : Cell => py_str x ≠ "nan") cells).

(** The job of a row the gate turns away returns at once. *)
Lemma thread_job_skips name cells w :
  should_skip cfg name w = true ->
  thread_job cfg rq_get (name, cells) w = (w, Return tt).
Proof.
  unfold should_skip, final_path. intros [Hd Hf]%andb_true_iff.
  unfold thread_job, _unpack_input, bind; simpl. rewrite Hd.
  unfold _file_exists, bind, os_path_isfile. by rewrite Hf.
Qed.

(** The job of any other row calls the resolver and goes on from what it
    returns. *)
Lemma thread_job_resolves name cells w :
  should_skip cfg name w = false ->
  thread_job cfg rq_get (name, cells) w
  = (do '(response, exceptions) <- _try_links cfg rq_get (links_of cells) [];
     match response with
     | Some r =>
         run _save_file cfg r name;
         run print ("Downloaded " +:+ dquote +:+ name +:+ dquote);
         _add_to_report name true (Some r) exceptions
     | None => _add_to_report name false None exceptions
     end) w.
Proof.
  unfold should_skip, final_path. intros Hs.
  unfold thread_job, _unpack_input; simpl.
  unfold bind at 1.
  destruct (DOWNLOAD_ALL cfg); simpl in *; [done|].
  unfold _file_exists, bind at 1, os_path_isfile. by rewrite Hs.
Qed.

(** [_save_file] never raises: it leaves the payload at the final path
    and nothing at the staging path. *)
Lemma save_file_world r name w :
  _save_file cfg r name w
  = (mkWorld (<[final_path cfg name := payload cfg r]>
                (delete (staging_path cfg name)
                   (<[staging_path cfg name := payload cfg r]> (fs w))))
             (reports w)
             (trace w ++ [EvWrite (staging_path cfg name) (payload cfg r);
                          EvReplace (staging_path cfg name)
                                    (final_path cfg name)]),
     Return tt).
Proof.
  unfold _save_file, payload, staging_path, final_path, bind.
  destruct (IS_BIN cfg); unfold open_write, os_replace; simpl;
    rewrite lookup_insert_eq; by rewrite <- app_assoc.
Qed.

(** The world a job leaves when the gate lets the row through and no
    candidate meets a missing header. *)
Lemma thread_job_runs name cells w :
  should_skip cfg name w = false ->
  forallb (fun u => negb (yields cfg rq_get headerless u)) (links_of cells)
  = true ->
  thread_job cfg rq_get (name, cells) w
  = match fold_left (scan_step cfg rq_get) (links_of cells) None with
    | Some r =>
        (mkWorld (<[final_path cfg name := payload cfg r]>
                    (delete (staging_path cfg name)
                       (<[staging_path cfg name := payload cfg r]> (fs w))))
                 (reports w ++
                    [mkReport name true (url r)
                       (joined (failures cfg rq_get (links_of cells)))])
                 (trace w ++ map ev (links_of cells) ++
                    [EvWrite (staging_path cfg name) (payload cfg r);
                     EvReplace (staging_path cfg name) (final_path cfg name);
                     EvPrint ("Downloaded " +:+ dquote +:+ name +:+ dquote)]),
         Return tt)
    | None =>
        (mkWorld (fs w)
                 (reports w ++
                    [mkReport name false EmptyString
                       (joined (failures cfg rq_get (links_of cells)))])
                 (trace w ++ map ev (links_of cells)),
         Return tt)
    end.
Proof.
  intros Hs Hh. rewrite thread_job_resolves by done.
  unfold bind at 1. unfold _try_links. rewrite loop_returns by done.
  simpl. destruct (fold_left _ _ None) as [r|].
  - unfold bind at 1. rewrite save_file_world.
    unfold bind, print, emit, _add_to_report, reports_append, joined; simpl.
    by rewrite <- !app_assoc.
  - by unfold _add_to_report, reports_append, joined.
Qed.

(** What a job that the gate lets through does with the outcome of the
    resolver: the files, the reports and the job's own outcome. *)
Lemma thread_job_by_outcome name cells w n o :
  should_skip cfg name w = false ->
  (forall w0, _try_links cfg rq_get (links_of cells) [] w0
              = (add_trace w0 (map ev (take n (links_of cells))), o)) ->
  let j := thread_job cfg rq_get (name, cells) w in
  match o with
  | Raise e =>
      fs (fst j) = fs w /\ reports (fst j) = reports w /\ snd j = Raise e
  | Return (Some r, excs) =>
      fs (fst j) = <[final_path cfg name := payload cfg r]>
                     (delete (staging_path cfg name)
                        (<[staging_path cfg name := payload cfg r]> (fs w)))
      /\ reports (fst j)
         = reports w ++ [mkReport name true (url r) (joined excs)]
      /\ snd j = Return tt
  | Return (None, excs) =>
      fs (fst j) = fs w
      /\ reports (fst j)
         = reports w ++ [mkReport name false EmptyString (joined excs)]
      /\ snd j = Return tt
  end.
Proof.
  intros Hs Ho j. subst j. rewrite thread_job_resolves by done.
  unfold bind. rewrite !Ho.
  destruct o as [[[r|] excs]|e]; simpl; [|done|done].
  rewrite !save_file_world.
  by unfold print, emit, _add_to_report, reports_append, joined.
Qed.

End Job.

(** ** The claims about the resolver *)



(** C9.  The acceptance test also asks for status code 200.  Whatever the
    resolver returns as its winner is the response of one of the candidates
    and has status code 200; and a candidate whose response has another
    status code is passed over, whatever its content type says: the winner
    and the exceptions stay as they were. *)
Theorem winner_has_status_200 (cfg : Settings)
    (rq_get : Cell -> Z -> Exn + Response) :
  (forall links excs w w' r excs',
     _try_links cfg rq_get links excs w = (w', Return (Some r, excs')) ->
     status_code r = 200 /\
     exists u, u ∈ links /\ rq_get u (TIMEOUT cfg) = inr r) /\
  (forall u r links res excs w,
     rq_get u (TIMEOUT cfg) = inr r ->
     status_code r <> 200 ->
     _try_links_loop cfg rq_get (u :: links) res excs w
     = _try_links_loop cfg rq_get links res excs
         (add_trace w [get_event cfg u])).
Proof.
  split.
  - intros links excs w w' r excs' H.
    apply loop_winner_origin in H as [H|(u & Hu & Hr & Ha)]; [done|].
    split; [|by exists u].
    unfold acceptable in Ha. apply andb_true_iff in Ha as [Hs _].
    by apply Z.eqb_eq.
  - intros u r links res excs w Hr Hs.
    assert (Hne : (status_code r =? 200) = false) by by apply Z.eqb_neq.
    rewrite (loop_fetch_checked _ _ _ _ _ _ _ _ Hr)
      by (unfold headerless; by rewrite Hne).
    unfold acceptable. by rewrite Hne.
Qed.

Lemma winner_has_status_200_witness :
  (status_code (Sample.pdf_response "http://c/r.pdf" [x43%byte]) = 200 /\
   exists u, u ∈ [Sample.A; Sample.G; Sample.C] /\
             Sample.net u (TIMEOUT Sample.cfg)
             = inr (Sample.pdf_response "http://c/r.pdf" [x43%byte])) /\
  _try_links_loop Sample.cfg Sample.net [Sample.G] None [] Sample.fresh
  = _try_links_loop Sample.cfg Sample.net [] None []
      (add_trace Sample.fresh [get_event Sample.cfg Sample.G]).
Proof.
  split.
  - eapply (proj1 (winner_has_status_200 Sample.cfg Sample.net)
              [Sample.A; Sample.G; Sample.C] [] Sample.fresh).
    reflexivity.
  - eapply (proj2 (winner_has_status_200 Sample.cfg Sample.net) Sample.G);
      [reflexivity|by vm_compute].
Defined.

(** C7.  A candidate whose fetch completes and whose response the
    acceptance test turns down is no failure: the loop goes on to the
    remaining candidates with the winner and the exceptions as they were;
    the resolver's result is the one it would give without the candidate;
    and the job of the row leaves the same files and the same report entry,
    failure details included, as it would without it. *)
Theorem rejected_candidate_leaves_no_mark (cfg : Settings)
    (rq_get : Cell -> Z -> Exn + Response) (u : Cell) (r : Response) :
  rq_get u (TIMEOUT cfg) = inr r ->
  acceptable cfg r = false ->
  headerless r = false ->
  (forall links res excs w,
     _try_links_loop cfg rq_get (u :: links) res excs w
     = _try_links_loop cfg rq_get links res excs
         (add_trace w [get_event cfg u])) /\
  (forall pre post excs w,
     snd (_try_links cfg rq_get (pre ++ u :: post) excs w)
     = snd (_try_links cfg rq_get (pre ++ post) excs w)) /\
  (forall name pre post w,
     let j1 := thread_job cfg rq_get (name, pre ++ u :: post) w in
     let j2 := thread_job cfg rq_get (name, pre ++ post) w in
     fs (fst j1) = fs (fst j2) /\ reports (fst j1) = reports (fst j2) /\
     snd j1 = snd j2).
Proof.
  intros Hr Ha Hh. split; [|split].
  - intros links res excs w.
    by rewrite (loop_fetch_checked _ _ _ _ _ _ _ _ Hr Hh), Ha.
  - intros pre post excs w. unfold _try_links.
    by eapply loop_without_rejected.
  - intros name pre post w j1 j2. subst j1 j2.
    destruct (should_skip cfg name w) eqn:Hs.
    { by rewrite !thread_job_skips. }
    destruct (loop_frame cfg rq_get
                (filter (fun x : Cell => py_str x ≠ "nan") (pre ++ u :: post))
                None []) as (n1 & o1 & H1 & _).
    destruct (loop_frame cfg rq_get
                (filter (fun x : Cell => py_str x ≠ "nan") (pre ++ post))
                None []) as (n2 & o2 & H2 & _).
    assert (Ho : o1 = o2).
    { pose proof (H1 w) as E1. pose proof (H2 w) as E2.
      rewrite filter_app in E1, E2.
      destruct (decide (py_str u ≠ "nan")) as [Hu|Hu].
      - rewrite filter_cons_True in E1 by done.
        pose proof (loop_without_rejected cfg rq_get
                      (filter (fun x : Cell => py_str x ≠ "nan") pre) u
                      (filter (fun x : Cell => py_str x ≠ "nan") post)
                      r None [] w Hr Ha Hh) as E.
        rewrite E1, E2 in E. done.
      - rewrite filter_cons_False in E1 by done. congruence. }
    subst o2.
    pose proof (thread_job_by_outcome cfg rq_get name (pre ++ u :: post) w
                  n1 o1 Hs H1) as J1.
    pose proof (thread_job_by_outcome cfg rq_get name (pre ++ post) w
                  n2 o1 Hs H2) as J2.
    simpl in J1, J2.
    destruct o1 as [[[r1|] excs1]|e];
      destruct J1 as (-> & -> & ->); by destruct J2 as (-> & -> & ->).
Qed.

Lemma rejected_candidate_leaves_no_mark_witness :
  (forall links res excs w,
     _try_links_loop Sample.cfg Sample.net (Sample.H :: links) res excs w
     = _try_links_loop Sample.cfg Sample.net links res excs
         (add_trace w [get_event Sample.cfg Sample.H])) /\
  (forall pre post excs w,
     snd (_try_links Sample.cfg Sample.net (pre ++ Sample.H :: post) excs w)
     = snd (_try_links Sample.cfg Sample.net (pre ++ post) excs w)) /\
  (forall name pre post w,
     let j1 :=
       thread_job Sample.cfg Sample.net (name, pre ++ Sample.H :: post) w in
     let j2 := thread_job Sample.cfg Sample.net (name, pre ++ post) w in
     fs (fst j1) = fs (fst j2) /\ reports (fst j1) = reports (fst j2) /\
     snd j1 = snd j2).
Proof.
  apply (rejected_candidate_leaves_no_mark Sample.cfg Sample.net Sample.H
           (Sample.html_response "http://h/")); reflexivity.
Defined.




(** C10, as the code has it.  [_is_correct_filetype] reads the content-type
    header by plain lookup and raises [KeyError] for any response without
    it.  The test of [_try_links] calls it only for a response of status
    200: when a row that the gate lets through has a candidate whose
    response has status 200 and no content-type header, the [KeyError]
    leaves the resolver and the job, no file is written or renamed and no
    report entry is appended; the world differs from the one before by
    requests only. *)
Theorem missing_header_ends_the_job (cfg : Settings)
    (rq_get : Cell -> Z -> Exn + Response) :
  (forall r w,
     headers r !! "content-type" = None ->
     _is_correct_filetype cfg r w = (w, Raise (KeyError "content-type"))) /\
  (forall name cells w u r,
     should_skip cfg name w = false ->
     u ∈ filter (fun x : Cell => py_str x ≠ "nan") cells ->
     rq_get u (TIMEOUT cfg) = inr r ->
     status_code r = 200 ->
     headers r !! "content-type" = None ->
     exists n,
       thread_job cfg rq_get (name, cells) w
       = (add_trace w
            (map (get_event cfg)
               (take n (filter (fun x : Cell => py_str x ≠ "nan") cells))),
          Raise (KeyError "content-type"))).
Proof.
  split.
  - intros r w H. unfold _is_correct_filetype. by rewrite H.
  - intros name cells w u r Hs Hu Hr Hst Hh.
    assert (Hex : existsb (yields cfg rq_get headerless)
                    (filter (fun x : Cell => py_str x ≠ "nan") cells) = true).
    { apply existsb_exists. exists u. split; [by apply list_elem_of_In|].
      unfold yields, headerless. rewrite Hr, Hst, Hh. done. }
    destruct (loop_raises cfg rq_get _ None [] Hex) as [n Hn].
    exists n. rewrite thread_job_resolves by done.
    unfold bind, _try_links. by rewrite Hn.
Qed.

Lemma missing_header_ends_the_job_witness :
  _is_correct_filetype Sample.cfg (Sample.bare_response 200 "http://n/")
    Sample.fresh
  = (Sample.fresh, Raise (KeyError "content-type")) /\
  exists n,
    thread_job Sample.cfg Sample.net ("BR1", [Sample.A; Sample.N; Sample.C])
      Sample.fresh
    = (add_trace Sample.fresh
         (map (get_event Sample.cfg)
            (take n (filter (fun x : Cell => py_str x ≠ "nan")
                       [Sample.A; Sample.N; Sample.C]))),
       Raise (KeyError "content-type")).
Proof.
  split.
  - apply (proj1 (missing_header_ends_the_job Sample.cfg Sample.net)).
    reflexivity.
  - apply (proj2 (missing_header_ends_the_job Sample.cfg Sample.net)
             "BR1" [Sample.A; Sample.N; Sample.C] Sample.fresh Sample.N
             (Sample.bare_response 200 "http://n/")); try reflexivity.
    apply list_elem_of_In. vm_compute. tauto.
Defined.

(** C10 as worded fails for a response that has no content-type header and
    a status other than 200: the header is never read, the job returns and
    appends its report entry. *)
Lemma missing_header_with_status_404_is_reported :
  ~ (forall (cfg : Settings) (rq_get : Cell -> Z -> Exn + Response)
            name cells w u r,
       should_skip cfg name w = false ->
       u ∈ filter (fun x : Cell => py_str x ≠ "nan") cells ->
       rq_get u (TIMEOUT cfg) = inr r ->
       headers r !! "content-type" = None ->
       exists w' e,
         thread_job cfg rq_get (name, cells) w = (w', Raise e) /\
         reports w' = reports w).
Proof.
  intros H.
  destruct (H Sample.cfg Sample.net "BR1" [Sample.F] Sample.fresh Sample.F
              (Sample.bare_response 404 "http://f/"))
    as (w' & e & Hj & _); try reflexivity.
  - apply list_elem_of_In. vm_compute. tauto.
  - vm_compute in Hj. discriminate.
Qed.

(** ** The claims about one job *)

(** A job that the gate lets through starts by requesting its first
    candidate. *)
Lemma thread_job_requests_first (cfg : Settings)
    (rq_get : Cell -> Z -> Exn + Response) name cells w u rest :
  should_skip cfg name w = false ->
  filter (fun x : Cell => py_str x ≠ "nan") cells = u :: rest ->
  exists tr,
    trace (fst (thread_job cfg rq_get (name, cells) w))
    = trace w ++ get_event cfg u :: tr.
Proof.
  intros Hs Hl. rewrite thread_job_resolves by done. rewrite Hl.
  unfold bind at 1. unfold _try_links.
  assert (Hloop : exists tr o, _try_links_loop cfg rq_get (u :: rest) None [] w
                               = (add_trace w (get_event cfg u :: tr), o)).
  { destruct (rq_get u (TIMEOUT cfg)) as [e|r] eqn:Hr.
    - destruct (loop_frame cfg rq_get rest None ([] ++ [e])) as (n & o & H & _).
      rewrite (loop_fetch_fails _ _ _ _ _ _ _ _ Hr), H, add_trace_app. eauto.
    - destruct (headerless r) eqn:Hh.
      + rewrite (loop_fetch_headerless _ _ _ _ _ _ _ _ Hr Hh). eauto.
      + destruct (loop_frame cfg rq_get rest
                    (if acceptable cfg r then Some r else None) [])
          as (n & o & H & _).
        rewrite (loop_fetch_checked _ _ _ _ _ _ _ _ Hr Hh), H, add_trace_app.
        eauto. }
  destruct Hloop as (tr & o & ->).
  destruct o as [[[r|] excs]|e]; simpl.
  - unfold bind at 1. rewrite save_file_world.
    unfold bind, print, emit, _add_to_report, reports_append; simpl.
    rewrite <- !app_assoc. simpl. eauto.
  - eauto.
  - eauto.
Qed.

(** C3.  The fetch of a row is skipped exactly when the flag is false and
    the file [name.filetype] is in the downloads folder: then, and only
    then, the job returns at once and leaves the world, its trace of
    requests included, as it was.  [_file_exists] tells whether the file
    is there.  In every other case the resolver is called on the links of
    the row, and its first candidate, if there is one, is requested. *)
Theorem fetch_skipped_iff_kept_and_present (cfg : Settings)
    (rq_get : Cell -> Z -> Exn + Response) (name : string)
    (cells : list Cell) (w : World) :
  let present :=
    is_Some (fs w !! (DL_FOLDER cfg +:+ name +:+ "." +:+ FILETYPE cfg)) in
  let links := filter (fun x : Cell => py_str x ≠ "nan") cells in
  _file_exists cfg name w = (w, Return (bool_decide present)) /\
  (thread_job cfg rq_get (name, cells) w = (w, Return tt)
   <-> DOWNLOAD_ALL cfg = false /\ present) /\
  (~ (DOWNLOAD_ALL cfg = false /\ present) ->
   thread_job cfg rq_get (name, cells) w
   = (do '(response, exceptions) <- _try_links cfg rq_get links [];
      match response with
      | Some r =>
          run _save_file cfg r name;
          run print ("Downloaded " +:+ dquote +:+ name +:+ dquote);
          _add_to_report name true (Some r) exceptions
      | None => _add_to_report name false None exceptions
      end) w /\
   forall u rest,
     links = u :: rest ->
     exists tr,
       trace (fst (thread_job cfg rq_get (name, cells) w))
       = trace w ++ get_event cfg u :: tr).
Proof.
  intros present links.
  assert (Hgate : should_skip cfg name w = true
                  <-> DOWNLOAD_ALL cfg = false /\ present).
  { unfold should_skip, final_path. rewrite andb_true_iff, negb_true_iff.
    by rewrite bool_decide_eq_true. }
  split; [|split].
  - unfold _file_exists, bind, os_path_isfile. fold present.
    by destruct (bool_decide present).
  - rewrite <- Hgate. split.
    + intros Hj. destruct (should_skip cfg name w) eqn:Hs; [done|].
      destruct (loop_frame cfg rq_get links None []) as (n & o & Ho & _).
      pose proof (thread_job_by_outcome cfg rq_get name cells w n o Hs Ho)
        as J.
      simpl in J. rewrite Hj in J. simpl in J.
      destruct o as [[[r|] excs]|e]; destruct J as (_ & Hr & Hout);
        try done; apply (f_equal length) in Hr;
        rewrite length_app in Hr; simpl in Hr; lia.
    + apply thread_job_skips.
  - intros Hno.
    assert (Hs : should_skip cfg name w = false).
    { destruct (should_skip cfg name w); [|done].
      exfalso. apply Hno. by apply Hgate. }
    split; [by apply thread_job_resolves|].
    intros u rest Hl. by eapply thread_job_requests_first.
Qed.

Lemma fetch_skipped_iff_kept_and_present_witness :
  thread_job Sample.cfg_keep Sample.net ("BR1", [Sample.A]) Sample.downloaded
  = (Sample.downloaded, Return tt) /\
  exists tr,
    trace (fst (thread_job Sample.cfg_keep Sample.net ("BR2", [Sample.A])
                  Sample.downloaded))
    = trace Sample.downloaded ++ get_event Sample.cfg_keep Sample.A :: tr.
Proof.
  split.
  - apply (proj1 (proj2 (fetch_skipped_iff_kept_and_present
                           Sample.cfg_keep Sample.net "BR1" [Sample.A]
                           Sample.downloaded))).
    split; [reflexivity|]. vm_compute. eauto.
  - apply (proj2 (proj2 (fetch_skipped_iff_kept_and_present
                           Sample.cfg_keep Sample.net "BR2" [Sample.A]
                           Sample.downloaded))) with (rest := []).
    + intros [_ Hp]. vm_compute in Hp. by destruct Hp.
    + reflexivity.
Defined.



(** No link of a row survives [_unpack_input] when all its cells read
    as "nan". *)
Lemma filter_all_nan (cells : list Cell) :
  Forall (fun x => py_str x = "nan") cells ->
  filter (fun x : Cell => py_str x ≠ "nan") cells = [].
Proof.
  induction 1 as [|x cells Hx _ IH]; [done|].
  by rewrite filter_cons_False by (by intros ?).
Qed.

(** C8.  A row whose link cells are all null, and which the gate lets
    through, has no candidate: the job makes no request, writes no file and
    appends one report entry, with [success] false, an empty source URL
    and empty failure details. *)
Theorem all_links_null_reports_plain_failure (cfg : Settings)
    (rq_get : Cell -> Z -> Exn + Response) (name : string)
    (cells : list Cell) (w : World) :
  Forall (fun x => py_str x = "nan") cells ->
  should_skip cfg name w = false ->
  _unpack_input (name, cells) = (name, []) /\
  thread_job cfg rq_get (name, cells) w
  = (mkWorld (fs w)
             (reports w ++ [mkReport name false EmptyString EmptyString])
             (trace w),
     Return tt).
Proof.
  intros Hnan Hs. pose proof (filter_all_nan cells Hnan) as Hl.
  split.
  - unfold _unpack_input. simpl. by rewrite Hl.
  - rewrite thread_job_runs by (by rewrite ?Hl).
    rewrite Hl. simpl. by rewrite app_nil_r.
Qed.

Lemma all_links_null_reports_plain_failure_witness :
  _unpack_input ("BR7", [CNaN; CNaN]) = ("BR7", []) /\
  thread_job Sample.cfg_keep Sample.net ("BR7", [CNaN; CNaN])
    Sample.downloaded
  = (mkWorld (fs Sample.downloaded)
             (reports Sample.downloaded ++
                [mkReport "BR7" false EmptyString EmptyString])
             (trace Sample.downloaded),
     Return tt).
Proof.
  apply (all_links_null_reports_plain_failure Sample.cfg_keep Sample.net);
    [by repeat constructor|reflexivity].
Defined.

(** ** Facts about the orchestrator *)

(** The order of names that [sort_values] sorts by is total and
    transitive. *)
Lemma ascii_compare_lt_trans a b c :
  Ascii.compare a b = Lt -> Ascii.compare b c = Lt -> Ascii.compare a c = Lt.
Proof. unfold Ascii.compare. rewrite !N.compare_lt_iff. lia. Qed.

Lemma string_leb_trans a b c :
  String.leb a b = true -> String.leb b c = true -> String.leb a c = true.
Proof.
  unfold String.leb. revert b c.
  induction a as [|x a IH]; intros [|y b] [|z c]; simpl; try done.
  destruct (Ascii.compare x y) eqn:Hxy; try done;
    destruct (Ascii.compare y z) eqn:Hyz; try done.
  - apply Ascii.compare_eq_iff in Hxy, Hyz. subst.
    unfold Ascii.compare at 1. rewrite N.compare_refl. apply IH.
  - apply Ascii.compare_eq_iff in Hxy. subst. by rewrite Hyz.
  - apply Ascii.compare_eq_iff in Hyz. subst. by rewrite Hxy.
  - by rewrite (ascii_compare_lt_trans _ _ _ Hxy Hyz).
Qed.

Global Instance name_le_total : Total name_le.
Proof. intros a b. apply String.leb_total. Qed.

Global Instance name_le_trans : Transitive name_le.
Proof. intros a b c. apply string_leb_trans. Qed.



Lemma run_jobs_returns (cfg : Settings)
    (rq_get : Cell -> Z -> Exn + Response) data w :
  snd (run_jobs cfg rq_get data w) = Return tt.
Proof. revert w. induction data as [|row data IH]; intros w; [done|apply IH]. Qed.


(** [main] is the jobs, then one write of the report. *)
Lemma main_unfold (cfg : Settings)
    (rq_get : Cell -> Z -> Exn + Response) data w :
  main cfg rq_get data w
  = let w1 := fst (run_jobs cfg rq_get data (mkWorld (fs w) [] (trace w))) in
    write_report cfg (reports w1) w1.
Proof.
  unfold main, bind, reports_new, reports_read.
  pose proof (run_jobs_returns cfg rq_get data (mkWorld (fs w) [] (trace w)))
    as Hr.
  destruct (run_jobs cfg rq_get data (mkWorld (fs w) [] (trace w)))
    as [w1 o]. simpl in *. by subst o.
Qed.

(** ** The claims about the orchestrator *)








(** ** Further facts about one job *)












(** ** Further facts about the acceptance test *)

Lemma append_cons (c : ascii) (p q : string) :
  String c p +:+ q = String c (p +:+ q).
Proof. reflexivity. Qed.

Lemma string_prefix_iff (p s : string) :
  String.prefix p s = true <-> exists post, s = p +:+ post.
Proof.
  revert s. induction p as [|a p IH]; intros [|b s]; simpl.
  - split; [intros _; by exists EmptyString|done].
  - split; [intros _; by exists (String b s)|done].
  - split; [done|]. by intros [post H].
  - destruct (Ascii.ascii_dec a b) as [->|Hne].
    + rewrite IH. split; intros [post H]; exists post;
        rewrite append_cons in *; congruence.
    + split; [done|]. intros [post H]. rewrite append_cons in H. congruence.
Qed.

(** [py_in] is containment as a contiguous piece. *)
Lemma py_in_iff (sub s : string) :
  py_in sub s = true <-> exists pre post, s = pre +:+ sub +:+ post.
Proof.
  induction s as [|c s IH].
  - cbn [py_in]. rewrite orb_false_r, string_prefix_iff. split.
    + intros [post H]. by exists EmptyString, post.
    + intros (pre & post & H). destruct pre; [by exists post|done].
  - cbn [py_in]. rewrite orb_true_iff, string_prefix_iff, IH. split.
    + intros [[post H]|(pre & post & H)].
      * by exists EmptyString, post.
      * exists (String c pre), post. by rewrite append_cons, H.
    + intros (pre & post & H). destruct pre as [|c' pre].
      * left. by exists post.
      * right. exists pre, post. rewrite append_cons in H. congruence.
Qed.

(** X5.  [_is_correct_filetype] accepts a response exactly when its content
    type holds [FILETYPE] somewhere as a contiguous piece, letter case
    and position left as they are; it returns and changes nothing.  With
    an empty [FILETYPE] every response that has the header is accepted. *)
Theorem filetype_check_is_containment (cfg : Settings) (r : Response)
    (ct : string) (w : World) :
  headers r !! "content-type" = Some ct ->
  exists b,
    _is_correct_filetype cfg r w = (w, Return b) /\
    (b = true <-> exists pre post, ct = pre +:+ FILETYPE cfg +:+ post) /\
    (FILETYPE cfg = EmptyString -> b = true).
Proof.
  intros Hct. exists (py_in (FILETYPE cfg) ct). split; [|split].
  - unfold _is_correct_filetype. rewrite Hct.
    by destruct (py_in (FILETYPE cfg) ct).
  - apply py_in_iff.
  - intros He. apply py_in_iff. rewrite He. by exists EmptyString, ct.
Qed.

Lemma filetype_check_is_containment_witness :
  exists b,
    _is_correct_filetype Sample.cfg
      (Sample.html_response "http://h/") Sample.fresh
    = (Sample.fresh, Return b) /\
    (b = true <->
     exists pre post,
       "text/html; charset=utf-8" = pre +:+ FILETYPE Sample.cfg +:+ post).
Proof.
  destruct (filetype_check_is_containment Sample.cfg
              (Sample.html_response "http://h/") "text/html; charset=utf-8"
              Sample.fresh eq_refl) as (b & Hrun & Hiff & _).
  exists b. split; [exact Hrun|exact Hiff].
Defined.

(** ** Further facts about the report and the run *)




(** A run in which the gate turns every row away leaves the world as it
    was. *)
Lemma run_jobs_all_skipped (cfg : Settings)
    (rq_get : Cell -> Z -> Exn + Response) data w :
  DOWNLOAD_ALL cfg = false ->
  Forall (fun row : datarow => is_Some (fs w !! final_path cfg (fst row)))
         data ->
  run_jobs cfg rq_get data w = (w, Return tt).
Proof.
  intros Hflag Hall. induction Hall as [|[nm cells] data Hrow _ IH]; [done|].
  cbn [run_jobs]. rewrite thread_job_skips; [exact IH|].
  unfold should_skip. rewrite Hflag. simpl. by apply bool_decide_eq_true.
Qed.

(** X7.  A run that downloads nothing still replaces the report.  On an
    empty input, and on an input all of whose rows are skipped (the flag is
    false and every final file is there), [main] makes no request, appends
    no entry and writes a report without rows over whatever report there
    was. *)
Theorem idle_run_empties_report (cfg : Settings)
    (rq_get : Cell -> Z -> Exn + Response) (w : World) :
  let idle :=
    (mkWorld (<[REPORT_FILE cfg := Sheet []]> (fs w)) []
             (trace w ++ [EvExcel (REPORT_FILE cfg) []]), Return tt) in
  main cfg rq_get [] w = idle /\
  (forall data,
     DOWNLOAD_ALL cfg = false ->
     Forall (fun row : datarow =>
               is_Some (fs w !! (DL_FOLDER cfg +:+ fst row +:+ "." +:+
                                 FILETYPE cfg))) data ->
     main cfg rq_get data w = idle).
Proof.
  intros idle. split; [done|].
  intros data Hflag Hall. rewrite main_unfold.
  rewrite run_jobs_all_skipped by done. done.
Qed.

Lemma idle_run_empties_report_witness :
  main Sample.cfg_keep Sample.net [("BR1", [Sample.A; Sample.B])]
    Sample.downloaded
  = (mkWorld (<[REPORT_FILE Sample.cfg_keep := Sheet []]>
                (fs Sample.downloaded)) []
             (trace Sample.downloaded ++
              [EvExcel (REPORT_FILE Sample.cfg_keep) []]), Return tt).
Proof.
  apply (proj2 (idle_run_empties_report Sample.cfg_keep Sample.net
                  Sample.downloaded)); [reflexivity|].
  repeat constructor. vm_compute. eauto.
Defined.









(** ** Facts about the start-up *)





(** X11.  [test_settings] tries the input file first and the report file
    after it.  When the input file cannot be opened for reading (it is not
    there, or the system answers with one of the three errors that
    [_test_file] handles) the process prints one message and exits with
    code 1, and the report file is as it was.  When the input file can be
    read and the report file can be opened for writing, [test_settings]
    returns and the report file is empty: an earlier report is gone before
    any download starts, and no other file has changed.  When the report
    file cannot be opened for one of the three reasons, the process prints
    and exits with code 1 and no file has changed.  Any other exception
    is not handled. *)
Theorem test_settings_input_then_report
    (os_open_refuses : string -> OpenMode -> option StartExn)
    (INPUT_FILE REPORT_FILE : string) (b : Boot) :
  let handled e := e = ENOENT \/ e = EACCES \/ e = EISDIR in
  let exits_unchanged :=
    exists msg,
      test_settings os_open_refuses INPUT_FILE REPORT_FILE b
      = (mkBoot (add_trace (world b) [EvPrint msg]) (made b), Exited 1) in
  let input_readable :=
    os_open_refuses INPUT_FILE ModeR = None /\
    is_Some (fs (world b) !! INPUT_FILE) in
  (forall e, os_open_refuses INPUT_FILE ModeR = Some e -> handled e ->
             exits_unchanged) /\
  (os_open_refuses INPUT_FILE ModeR = None ->
   fs (world b) !! INPUT_FILE = None -> exits_unchanged) /\
  (input_readable -> os_open_refuses REPORT_FILE ModeW = None ->
   test_settings os_open_refuses INPUT_FILE REPORT_FILE b
   = (mkBoot (mkWorld (<[REPORT_FILE := Text EmptyString None]>
                         (fs (world b)))
                      (reports (world b)) (trace (world b)))
             (made b), Went tt)) /\
  (input_readable ->
   forall e, os_open_refuses REPORT_FILE ModeW = Some e -> handled e ->
             exits_unchanged) /\
  (forall e, ~ handled e ->
     (os_open_refuses INPUT_FILE ModeR = Some e \/
      input_readable /\ os_open_refuses REPORT_FILE ModeW = Some e) ->
     test_settings os_open_refuses INPUT_FILE REPORT_FILE b
     = (b, Crashed e)).
Proof.
  intros handled exits_unchanged input_readable.
  subst handled exits_unchanged input_readable. simpl.
  unfold test_settings, and_then, _test_file, open_and_close, say, exit,
    print, emit, add_trace.
  split; [|split; [|split; [|split]]].
  - intros e He Hh. rewrite He.
    destruct Hh as [-> | [-> | ->]]; simpl; eauto.
  - intros Hr Hn. rewrite Hr, Hn. simpl. eauto.
  - intros [Hr [d Hd]] Hw. rewrite Hr, Hd, Hw. done.
  - intros [Hr [d Hd]] e He Hh. rewrite Hr, Hd, He.
    destruct Hh as [-> | [-> | ->]]; simpl; eauto.
  - intros e Hh [He|[[Hr [d Hd]] He]].
    + rewrite He. destruct e; try done; destruct Hh; eauto.
    + rewrite Hr, Hd, He. destruct e; try done; destruct Hh; eauto.
Qed.

Lemma test_settings_input_then_report_witness :
  test_settings (fun _ _ => None) "in.xlsx" "report.xlsx"
    Profiles.boot_with_report
  = (mkBoot (mkWorld (<["report.xlsx" := Text EmptyString None]>
                        (fs (world Profiles.boot_with_report)))
                     (reports (world Profiles.boot_with_report))
                     (trace (world Profiles.boot_with_report)))
            (made Profiles.boot_with_report), Went tt) /\
  exists msg,
    test_settings (fun _ _ => None) "missing.xlsx" "report.xlsx"
      Profiles.boot_with_report
    = (mkBoot (add_trace (world Profiles.boot_with_report) [EvPrint msg])
              (made Profiles.boot_with_report), Exited 1).
Proof.
  split.
  - apply (proj1 (proj2 (proj2 (test_settings_input_then_report
                                  (fun _ _ => None) "in.xlsx" "report.xlsx"
                                  Profiles.boot_with_report))));
      [|reflexivity].
    split; [reflexivity|]. vm_compute. eauto.
  - apply (proj1 (proj2 (test_settings_input_then_report
                           (fun _ _ => None) "missing.xlsx" "report.xlsx"
                           Profiles.boot_with_report))); reflexivity.
Defined.

(** ** A job that dies leaves the run as it was *)

(** What a job does to the files and the reports depends on the files and
    the reports only. *)
Lemma thread_job_same_state (cfg : Settings)
    (rq_get : Cell -> Z -> Exn + Response) row w1 w2 :
  fs w1 = fs w2 -> reports w1 = reports w2 ->
  fs (fst (thread_job cfg rq_get row w1))
  = fs (fst (thread_job cfg rq_get row w2)) /\
  reports (fst (thread_job cfg rq_get row w1))
  = reports (fst (thread_job cfg rq_get row w2)).
Proof.
  destruct row as [nm cells]. intros Hfs Hrs.
  assert (Hs : should_skip cfg nm w1 = should_skip cfg nm w2)
    by (unfold should_skip; by rewrite Hfs).
  destruct (should_skip cfg nm w2) eqn:Hs2.
  { by rewrite !thread_job_skips. }
  destruct (loop_frame cfg rq_get
              (filter (fun x : Cell => py_str x ≠ "nan") cells) None [])
    as (n & o & Ho & _).
  pose proof (thread_job_by_outcome cfg rq_get nm cells w1 n o Hs Ho) as J1.
  pose proof (thread_job_by_outcome cfg rq_get nm cells w2 n o Hs2 Ho) as J2.
  simpl in J1, J2.
  destruct o as [[[r|] excs]|e];
    destruct J1 as (-> & -> & _); destruct J2 as (-> & -> & _);
    by rewrite Hfs, Hrs.
Qed.

Lemma run_jobs_same_state (cfg : Settings)
    (rq_get : Cell -> Z -> Exn + Response) data w1 w2 :
  fs w1 = fs w2 -> reports w1 = reports w2 ->
  fs (fst (run_jobs cfg rq_get data w1))
  = fs (fst (run_jobs cfg rq_get data w2)) /\
  reports (fst (run_jobs cfg rq_get data w1))
  = reports (fst (run_jobs cfg rq_get data w2)).
Proof.
  revert w1 w2. induction data as [|row data IH]; intros w1 w2 Hfs Hrs;
    [done|].
  cbn [run_jobs].
  destruct (thread_job_same_state cfg rq_get row w1 w2 Hfs Hrs) as [H1 H2].
  by apply IH.
Qed.

Lemma run_jobs_app (cfg : Settings)
    (rq_get : Cell -> Z -> Exn + Response) d1 d2 w :
  run_jobs cfg rq_get (d1 ++ d2) w
  = run_jobs cfg rq_get d2 (fst (run_jobs cfg rq_get d1 w)).
Proof.
  revert w. induction d1 as [|row d1 IH]; intros w; [done|].
  rewrite <- app_comm_cons. cbn [run_jobs]. apply IH.
Qed.

(** A job with a candidate that meets a missing header changes neither the
    files nor the reports. *)
Lemma thread_job_dies_clean (cfg : Settings)
    (rq_get : Cell -> Z -> Exn + Response) nm cells w :
  existsb (yields cfg rq_get headerless)
    (filter (fun x : Cell => py_str x ≠ "nan") cells) = true ->
  fs (fst (thread_job cfg rq_get (nm, cells) w)) = fs w /\
  reports (fst (thread_job cfg rq_get (nm, cells) w)) = reports w.
Proof.
  intros Hex. destruct (should_skip cfg nm w) eqn:Hs.
  { by rewrite thread_job_skips. }
  destruct (loop_raises cfg rq_get _ None [] Hex) as [n Hn].
  rewrite thread_job_resolves by done.
  unfold bind, _try_links. by rewrite Hn.
Qed.

(** X12.  A row whose job dies of the missing header does not disturb the
    rest of the run: with such a row anywhere in the input, [main] leaves
    the same files, the report among them, and the same collected reports
    as it leaves on the input without that row. *)
Theorem dead_row_leaves_run_unchanged (cfg : Settings)
    (rq_get : Cell -> Z -> Exn + Response) (pre post : list datarow)
    (nm : string) (cells : list Cell) (w : World) :
  existsb (yields cfg rq_get headerless)
    (filter (fun x : Cell => py_str x ≠ "nan") cells) = true ->
  fs (fst (main cfg rq_get (pre ++ (nm, cells) :: post) w))
  = fs (fst (main cfg rq_get (pre ++ post) w)) /\
  reports (fst (main cfg rq_get (pre ++ (nm, cells) :: post) w))
  = reports (fst (main cfg rq_get (pre ++ post) w)).
Proof.
  intros Hex. rewrite !main_unfold. simpl.
  rewrite !run_jobs_app. cbn [run_jobs].
  set (w1 := fst (run_jobs cfg rq_get pre (mkWorld (fs w) [] (trace w)))).
  destruct (thread_job_dies_clean cfg rq_get nm cells w1 Hex) as [Hfs Hrs].
  destruct (run_jobs_same_state cfg rq_get post
              (fst (thread_job cfg rq_get (nm, cells) w1)) w1 Hfs Hrs)
    as [-> ->].
  done.
Qed.

Lemma dead_row_leaves_run_unchanged_witness :
  fs (fst (main Sample.cfg Sample.net
             ([("BR2", [Sample.A])] ++ ("BR3", [Sample.B; Sample.N]) ::
              [("BR4", [Sample.C])]) Sample.downloaded))
  = fs (fst (main Sample.cfg Sample.net
               ([("BR2", [Sample.A])] ++ [("BR4", [Sample.C])])
               Sample.downloaded)) /\
  reports (fst (main Sample.cfg Sample.net
                  ([("BR2", [Sample.A])] ++ ("BR3", [Sample.B; Sample.N]) ::
                   [("BR4", [Sample.C])]) Sample.downloaded))
  = reports (fst (main Sample.cfg Sample.net
                    ([("BR2", [Sample.A])] ++ [("BR4", [Sample.C])])
                    Sample.downloaded)).
Proof.
  apply (dead_row_leaves_run_unchanged Sample.cfg Sample.net).
  reflexivity.
Defined.
